(** * logical/request.go: the request envelope of a logical backend

    A shallow embedding of [Request], its accessors [Get] and [GetString],
    the derived-request constructors [RenewRequest], [RevokeRequest] and
    [RollbackRequest], and the [Operation] constants.

    Go features the file relies on, and how they are rendered here:
    - [interface{}] values are a tagged union [any], the nil interface
      being the constructor [ANil];
    - a [map[string]interface{}] is [option (gmap string any)], [None]
      being the nil map;
    - pointers are [option]s: a [*Request] is an optional location of a
      store of [Request] structs, a [*Secret] an optional [Secret];
    - a function is a computation over the store of [Request] structs that
      either returns or panics. *)

From stdpp Require Import gmap strings list fin_maps.

Local Open Scope string_scope.
Local Set Warnings "-register-all".

(** ** Dynamically typed values *)

(** What an [interface{}] may hold.  [ANamed T s] is a value of a defined
    string type [T] (such as [Operation]): its dynamic type is [T], not
    [string]. *)
Inductive any : Type :=
| ANil
| AString (s : string)
| ANamed (ty : string) (s : string)
| ABool (b : bool)
| AInt (n : Z)
| ASlice (l : list any)
| AMap (m : gmap string any).

(** The comma-ok type assertion [raw.(string)]: the held string and [true]
    when the dynamic type is [string], the zero value and [false]
    otherwise (the nil interface included). *)
Definition assert_string (raw : any) : string * bool :=
  match raw with
  | AString s => (s, true)
  | _ => ("", false)
  end.

(** Indexing a map, [m[key]]: the zero value of the element type when the
    key is missing. *)
Definition index (m : gmap string any) (key : string) : any :=
  default ANil (m !! key).

(** ** Operations *)

(** [type Operation string].  In the [const] block only the first constant
    of each group spells the type; the others are string constants that
    take the type where they are used.  Both are strings here. *)
Definition Operation : Type := string.

Definition ReadOperation : Operation := "read".
Definition WriteOperation : Operation := "write".
Definition DeleteOperation : Operation := "delete".
Definition ListOperation : Operation := "list".
Definition HelpOperation : Operation := "help".
Definition RevokeOperation : Operation := "revoke".
Definition RenewOperation : Operation := "renew".
Definition RollbackOperation : Operation := "rollback".

(** The constants of the [const] block, in source order. *)
Definition operations : list Operation :=
  [ReadOperation; WriteOperation; DeleteOperation; ListOperation;
   HelpOperation; RevokeOperation; RenewOperation; RollbackOperation].

(** A string is a defined operation when it is one of the constants. *)
Definition defined_operation (op : Operation) : bool :=
  bool_decide (op ∈ operations).

(** ** Requests and the store they live in *)

(** Addresses of heap-allocated [Request] structs. *)
Definition loc : Type := positive.

Section request.
(** [Secret] and [Storage] are declared in other files of the package;
    only references to them are stored here. *)
Context {Secret Storage : Type}.

(** The struct.  Each Go field shares its name with its type, so the
    projections carry the prefix [r]: [rOperation] is field [Operation],
    and so on.  A nil pointer, map or interface is [None]. *)
Record Request : Type := mkRequest {
  rOperation : Operation;
  rPath : string;
  rData : option (gmap string any);
  rStorage : option Storage;
  rSecret : option Secret
}.

(** A call either returns a value and the store it leaves, or panics.
    The store is the finite map of the allocated [Request] structs. *)
Inductive outcome (A : Type) : Type :=
| Returns (a : A) (h : gmap loc Request)
| Panics.

Definition go (A : Type) : Type := gmap loc Request -> outcome A.

Definition ret {A} (a : A) : go A := fun h => Returns A a h.

Definition bind {A B} (c : go A) (k : A -> go B) : go B :=
  fun h => match c h with
           | Returns _ a h' => k a h'
           | Panics _ => Panics B
           end.

(** Reading through a [*Request]: a nil pointer dereference panics. *)
Definition deref (r : option loc) : go Request :=
  fun h => match r with
           | Some l => match h !! l with
                       | Some v => Returns _ v h
                       | None => Panics _
                       end
           | None => Panics _
           end.

(** [&Request{...}]: a struct at an address not in use. *)
Definition new (v : Request) : go (option loc) :=
  fun h => let l := fresh (dom h) in Returns _ (Some l) (<[l:=v]> h).

End request.

Arguments Request : clear implicits.
Arguments outcome : clear implicits.
Arguments go : clear implicits.
Arguments Returns {Secret Storage A} a h.
Arguments Panics {Secret Storage A}.

(** The allocated [Request] structs. *)
Abbreviation store Secret Storage := (gmap loc (Request Secret Storage)).

Notation "x <- c ;; k" := (bind c (fun x => k))
  (at level 100, c at next level, right associativity).

Section functions.
Context {Secret Storage : Type}.

(** [func (r *Request) Get(key string) interface{}] *)
Definition Get (r : option loc) (key : string) : go Secret Storage any :=
  req <- deref r ;;
  match rData req with
  | None => ret ANil
  | Some data => ret (index data key)
  end.

(** [func (r *Request) GetString(key string) string] *)
Definition GetString (r : option loc) (key : string)
    : go Secret Storage string :=
  raw <- Get r key ;;
  let '(s, _) := assert_string raw in
  ret s.

(** [func RenewRequest(path, secret, data) *Request] *)
Definition RenewRequest (path : string) (secret : option Secret)
    (data : option (gmap string any)) : go Secret Storage (option loc) :=
  new {| rOperation := RenewOperation;
         rPath := path;
         rData := data;
         rStorage := None;
         rSecret := secret |}.

(** [func RevokeRequest(path, secret, data) *Request] *)
Definition RevokeRequest (path : string) (secret : option Secret)
    (data : option (gmap string any)) : go Secret Storage (option loc) :=
  new {| rOperation := RevokeOperation;
         rPath := path;
         rData := data;
         rStorage := None;
         rSecret := secret |}.

(** [func RollbackRequest(path) *Request] *)
Definition RollbackRequest (path : string) : go Secret Storage (option loc) :=
  new {| rOperation := RollbackOperation;
         rPath := path;
         rData := None;
         rStorage := None;
         rSecret := None |}.

(** ** Notions used to state the properties *)

(** The call [c] from store [h] returns a non-nil pointer to the struct
    [v], at an address that was not in use, and touches nothing else. *)
Definition allocates (c : go Secret Storage (option loc))
    (h : store Secret Storage) (v : Request Secret Storage) : Prop :=
  exists l h',
    c h = Returns (Some l) h' /\
    h !! l = None /\
    h' !! l = Some v /\
    forall l', l' <> l -> h' !! l' = h !! l'.

(** The value a request holds under [key], the nil interface when it holds
    none. *)
Definition field (v : Request Secret Storage) (key : string) : any :=
  match rData v with
  | None => ANil
  | Some data => index data key
  end.

(** Two consecutive calls of [c], both results kept. *)
Definition twice {A} (c : go Secret Storage A) : go Secret Storage (A * A) :=
  x <- c ;; y <- c ;; ret (x, y).

(** [produced secret v]: some call of a constructor, given [secret] (no
    secret for [RollbackRequest]), returned a pointer to [v]. *)
Inductive produced : option Secret -> Request Secret Storage -> Prop :=
| produced_renew path secret data h v :
    allocates (RenewRequest path secret data) h v -> produced secret v
| produced_revoke path secret data h v :
    allocates (RevokeRequest path secret data) h v -> produced secret v
| produced_rollback path h v :
    allocates (RollbackRequest path) h v -> produced None v.

(** What a key may be, in the [Data] of a request, for [GetString] to have
    no text to return. *)
Inductive field_state : Type := Missing | Mistyped | EmptyText.

Inductive field_in (v : Request Secret Storage) (key : string)
    : field_state -> Prop :=
| field_nil_map : rData v = None -> field_in v key Missing
| field_no_key data :
    rData v = Some data -> data !! key = None -> field_in v key Missing
| field_mistyped data x :
    rData v = Some data -> data !! key = Some x ->
    (forall s, x <> AString s) -> field_in v key Mistyped
| field_empty data :
    rData v = Some data -> data !! key = Some (AString "") ->
    field_in v key EmptyText.

End functions.

(** ** Sample data

    Secrets are stood for by their lease identifier, the storage
    capability by [unit]. *)

Definition secretX : option string := Some "lease-1".

(** [&Request{}] *)
Definition req_zero : Request string unit :=
  mkRequest "" "" None None None.

Definition req_fields : Request string unit :=
  mkRequest WriteOperation "creds/role1"
    (Some {[ "ttl" := AString "1h"; "count" := AInt 3;
             "note" := AString ""; "op" := ANamed "Operation" "read" ]})
    None None.

(** What [RenewRequest("creds/role1", nil, nil)] builds. *)
Definition req_renew_nil : Request string unit :=
  mkRequest "renew" "creds/role1" None None None.

(** What [RenewRequest("aws/creds/role1", secretX, map{"ttl": "1h"})]
    builds. *)
Definition req_renew : Request string unit :=
  mkRequest "renew" "aws/creds/role1" (Some {[ "ttl" := AString "1h" ]})
    None secretX.

Definition sample_store : store string unit :=
  {[ 1%positive := req_zero; 2%positive := req_fields;
     3%positive := req_renew ]}.

(** ** Callers of the constructors *)

Section calls.
Context {Secret Storage : Type}.

(** A call of one of the three constructors, with its arguments. *)
Inductive call : Type :=
| CallRenew (path : string) (secret : option Secret)
    (data : option (gmap string any))
| CallRevoke (path : string) (secret : option Secret)
    (data : option (gmap string any))
| CallRollback (path : string).

Definition perform (c : call) : go Secret Storage (option loc) :=
  match c with
  | CallRenew path secret data => RenewRequest path secret data
  | CallRevoke path secret data => RevokeRequest path secret data
  | CallRollback path => RollbackRequest path
  end.

(** The value a call returned, if it returned. *)
Definition result {A} (o : outcome Secret Storage A) : option A :=
  match o with
  | Returns a _ => Some a
  | Panics => None
  end.

End calls.

Arguments call : clear implicits.

(** ** The error sentinels *)

(** [errors.New(text)] of the standard library returns a pointer to a new
    struct holding [text]; two errors are equal when they are the same
    pointer.  The allocated error structs are a finite map from addresses
    to their text. *)
Definition errors_New (text : string) (e : gmap loc string)
    : loc * gmap loc string :=
  let l := fresh (dom e) in (l, <[l:=text]> e).

(** The package-level [var] block. *)
Record sentinels : Type := mkSentinels {
  ErrUnsupportedOperation : loc;
  ErrUnsupportedPath : loc;
  ErrInvalidRequest : loc
}.

(** Initialisation of the [var] block, in declaration order, from the
    errors allocated so far. *)
Definition init_errors (e : gmap loc string) : sentinels * gmap loc string :=
  let '(op, e1) := errors_New "unsupported operation" e in
  let '(pa, e2) := errors_New "unsupported path" e1 in
  let '(rq, e3) := errors_New "invalid request" e2 in
  (mkSentinels op pa rq, e3).

(** * Properties *)

Section basic_facts.
Context {Secret Storage : Type}.
Implicit Types (h : store Secret Storage) (v : Request Secret Storage).
Implicit Types (l : loc) (key path : string).

Lemma fresh_unused h : h !! fresh (dom h) = None.
Proof. apply not_elem_of_dom, is_fresh. Qed.

Lemma new_allocates v h : allocates (new v) h v.
Proof.
  exists (fresh (dom h)), (<[fresh (dom h):=v]> h).
  split; [reflexivity|].
  split; [apply fresh_unused|].
  split; [apply lookup_insert_eq|].
  intros l' Hne. apply lookup_insert_ne. congruence.
Qed.

Lemma deref_alloc h l v : h !! l = Some v -> deref (Some l) h = Returns v h.
Proof. intros Hl. unfold deref. now rewrite Hl. Qed.

Lemma Get_field h l v key :
  h !! l = Some v -> Get (Some l) key h = Returns (field v key) h.
Proof.
  intros Hl. unfold Get, bind, field. rewrite (deref_alloc _ _ _ Hl).
  now destruct (rData v).
Qed.

Lemma GetString_field h l v key :
  h !! l = Some v ->
  GetString (Some l) key h = Returns (assert_string (field v key)).1 h.
Proof.
  intros Hl. unfold GetString, bind. rewrite (Get_field _ _ _ _ Hl).
  now destruct (assert_string (field v key)).
Qed.

Lemma assert_string_other x :
  (forall s, x <> AString s) -> assert_string x = ("", false).
Proof. destruct x; try reflexivity. intros H. now destruct (H s). Qed.

End basic_facts.

(** ** The Operation constants *)

(** C2, as the code has it: the [const] block defines eight operations
    (read, write, delete, list, help, revoke, renew, rollback), their
    string values are pairwise distinct, and a string is a defined
    operation exactly when it is one of these eight values. *)
Theorem operations_eight_distinct :
  length operations = 8 /\
  NoDup operations /\
  forall op : Operation,
    defined_operation op = true <->
    op = "read" \/ op = "write" \/ op = "delete" \/ op = "list" \/
    op = "help" \/ op = "revoke" \/ op = "renew" \/ op = "rollback".
Proof.
  split; [reflexivity|].
  split; [apply (bool_decide_unpack _); vm_compute; exact I|].
  intros op. unfold defined_operation, operations.
  rewrite bool_decide_eq_true, !elem_of_cons, elem_of_nil.
  unfold ReadOperation, WriteOperation, DeleteOperation, ListOperation,
    HelpOperation, RevokeOperation, RenewOperation, RollbackOperation.
  tauto.
Qed.

(** C2 as worded does not hold: the defined operations are not nine. *)
Lemma operations_not_nine :
  ~ (length operations = 9 /\
     NoDup operations /\
     forall op : Operation, defined_operation op = true -> op ∈ operations).
Proof. intros [Hlen _]. vm_compute in Hlen. discriminate Hlen. Qed.

(** ** The constructors *)

Section constructors.
Context {Secret Storage : Type}.
Implicit Types (h : store Secret Storage) (v : Request Secret Storage).
Implicit Types (path : string) (secret : option Secret).
Implicit Types (data : option (gmap string any)).

Lemma allocates_new_inv x h v : allocates (new x) h v -> v = x.
Proof.
  intros (l & h' & Hret & _ & Hl & _).
  unfold new in Hret. injection Hret as <- <-.
  rewrite lookup_insert_eq in Hl. congruence.
Qed.

Lemma allocates_returns c h v : allocates c h v -> c h <> Panics.
Proof. intros (l & h' & Hret & _). now rewrite Hret. Qed.

(** C3: [RenewRequest(p, s, d)] returns a pointer to a new Request whose
    Operation is renew, Path is [p], Secret is [s], Data is [d], and whose
    Storage is unset. *)
Theorem RenewRequest_fields path secret data h :
  exists v,
    allocates (RenewRequest path secret data) h v /\
    rOperation v = "renew" /\ rPath v = path /\ rSecret v = secret /\
    rData v = data /\ rStorage v = None.
Proof. eexists. split; [apply new_allocates|]. now cbn. Qed.

(** C4: [RevokeRequest(p, s, d)] returns a pointer to a new Request whose
    Operation is revoke, Path is [p], Secret is [s], Data is [d] and
    Storage is unset; it agrees with what [RenewRequest(p, s, d)] builds on
    every field but Operation. *)
Theorem RevokeRequest_fields path secret data h :
  exists v w,
    allocates (RevokeRequest path secret data) h v /\
    rOperation v = "revoke" /\ rPath v = path /\ rSecret v = secret /\
    rData v = data /\ rStorage v = None /\
    allocates (RenewRequest path secret data) h w /\
    rOperation w <> rOperation v /\ rPath w = rPath v /\
    rSecret w = rSecret v /\ rData w = rData v /\ rStorage w = rStorage v.
Proof.
  do 2 eexists. split; [apply new_allocates|].
  do 5 (split; [reflexivity|]).
  split; [apply new_allocates|]. now cbn.
Qed.

(** C5: [RollbackRequest(p)] returns a pointer to a new Request whose
    Operation is rollback, Path is [p], and whose Secret and Data are
    nil. *)
Theorem RollbackRequest_fields path h :
  exists v,
    allocates (RollbackRequest path) h v /\
    rOperation v = "rollback" /\ rPath v = path /\
    rSecret v = None /\ rData v = None.
Proof. eexists. split; [apply new_allocates|]. now cbn. Qed.

(** C8: the three constructors always return, from every store and for
    every argument, a non-nil pointer to a newly allocated Request; they
    never panic, a nil secret and a nil data map included, and the nil
    arguments are stored as they are. *)
Theorem constructors_total path secret data h :
  (exists v, allocates (RenewRequest path secret data) h v) /\
  (exists v, allocates (RevokeRequest path secret data) h v) /\
  (exists v, allocates (RollbackRequest path) h v) /\
  RenewRequest path secret data h <> Panics /\
  RevokeRequest path secret data h <> Panics /\
  RollbackRequest (Secret:=Secret) (Storage:=Storage) path h <> Panics /\
  (exists v, allocates (RenewRequest path None None) h v /\
             rSecret v = None /\ rData v = None) /\
  (exists v, allocates (RevokeRequest path None None) h v /\
             rSecret v = None /\ rData v = None).
Proof.
  do 3 (split; [eexists; apply new_allocates|]).
  do 3 (split; [discriminate|]).
  split; eexists; (split; [apply new_allocates|now cbn]).
Qed.

(** C1, as the code has it: a Request built by a constructor holds exactly
    the secret the constructor was given (none for [RollbackRequest]); so
    its Secret is non-nil if and only if its Operation is renew or revoke
    and the secret given was non-nil, and a rollback Request has a nil
    Secret. *)
Theorem produced_secret secret v :
  produced secret v ->
  rSecret v = secret /\
  (rSecret v <> None <->
   (rOperation v = "renew" \/ rOperation v = "revoke") /\ secret <> None) /\
  (rOperation v = "rollback" -> rSecret v = None).
Proof.
  intros [p s d h w H|p s d h w H|p h w H];
    apply allocates_new_inv in H; subst w; cbn.
  - split; [reflexivity|]. split; [|discriminate]. split; [|tauto].
    intros Hs. split; [now left|exact Hs].
  - split; [reflexivity|]. split; [|discriminate]. split; [|tauto].
    intros Hs. split; [now right|exact Hs].
  - split; [reflexivity|]. split; [|intros _; reflexivity]. split; [|tauto].
    intros Hs. now destruct Hs.
Qed.

End constructors.

(** C1 as worded does not hold: [RenewRequest("creds/role1", nil, nil)],
    called on the empty store, builds a renew Request whose Secret is
    nil. *)
Lemma renew_nil_secret_breaks_iff :
  @RenewRequest string unit "creds/role1" None None ∅ =
    Returns (Some 1%positive) {[ 1%positive := req_renew_nil ]} /\
  produced None req_renew_nil /\
  ~ (rSecret req_renew_nil <> None <->
     rOperation req_renew_nil = "renew" \/
     rOperation req_renew_nil = "revoke").
Proof.
  split; [reflexivity|]. split.
  - apply (produced_renew "creds/role1" None None ∅). apply new_allocates.
  - cbn. intros [_ H]. now apply H; [left|].
Qed.

Lemma produced_secret_witness :
  produced secretX req_renew /\
  rSecret req_renew = secretX /\
  (rSecret req_renew <> None <->
   (rOperation req_renew = "renew" \/ rOperation req_renew = "revoke") /\
   secretX <> None) /\
  (rOperation req_renew = "rollback" -> rSecret req_renew = None).
Proof.
  split; [|apply (produced_secret secretX req_renew)];
    apply (produced_renew "aws/creds/role1" secretX
             (Some {[ "ttl" := AString "1h" ]}) ∅), new_allocates.
Defined.

(** ** The accessors *)

Section accessors.
Context {Secret Storage : Type}.
Implicit Types (h : store Secret Storage) (v : Request Secret Storage).
Implicit Types (l : loc) (key : string) (data : gmap string any).

Lemma field_nil v key : rData v = None -> field v key = ANil.
Proof. unfold field. now intros ->. Qed.

Lemma field_missing v key data :
  rData v = Some data -> data !! key = None -> field v key = ANil.
Proof. unfold field, index. now intros -> ->. Qed.

Lemma field_held v key data x :
  rData v = Some data -> data !! key = Some x -> field v key = x.
Proof. unfold field, index. now intros -> ->. Qed.

(** C6: on a Request whose Data is nil, [Get] returns the nil interface
    and [GetString] the empty string, for every key, and both return
    rather than panic; [Get] also returns the nil interface for a key that
    a non-nil Data does not hold. *)
Theorem Get_absent h l v key :
  h !! l = Some v ->
  (rData v = None ->
   Get (Some l) key h = Returns ANil h /\
   GetString (Some l) key h = Returns "" h) /\
  (forall data, rData v = Some data -> data !! key = None ->
   Get (Some l) key h = Returns ANil h).
Proof.
  intros Hl. split.
  - intros Hd.
    rewrite (Get_field h l v key Hl), (GetString_field h l v key Hl).
    now rewrite (field_nil v key Hd).
  - intros data Hd Hk. rewrite (Get_field h l v key Hl).
    now rewrite (field_missing v key data Hd Hk).
Qed.

(** C7: on a Request with a non-nil Data, [GetString] returns the stored
    text when the value under the key is a string, and the empty string,
    without panicking, when the value under the key is anything else. *)
Theorem GetString_typed h l v key data :
  h !! l = Some v ->
  rData v = Some data ->
  (forall s, data !! key = Some (AString s) ->
   GetString (Some l) key h = Returns s h) /\
  (forall x, data !! key = Some x -> (forall s, x <> AString s) ->
   GetString (Some l) key h = Returns "" h).
Proof.
  intros Hl Hd. split.
  - intros s Hk. rewrite (GetString_field h l v key Hl).
    now rewrite (field_held v key data _ Hd Hk).
  - intros x Hk Hx. rewrite (GetString_field h l v key Hl).
    rewrite (field_held v key data _ Hd Hk).
    now rewrite (assert_string_other x Hx).
Qed.

(** C9: on an allocated Request, [Get] and [GetString] return and leave
    the store exactly as it was, so no field of any Request changes; and
    two consecutive calls with the same key return the same result
    twice. *)
Theorem accessors_pure h l v key :
  h !! l = Some v ->
  exists x s,
    Get (Some l) key h = Returns x h /\
    GetString (Some l) key h = Returns s h /\
    twice (Get (Some l) key) h = Returns (x, x) h /\
    twice (GetString (Some l) key) h = Returns (s, s) h.
Proof.
  intros Hl. pose proof (Get_field h l v key Hl) as HG.
  pose proof (GetString_field h l v key Hl) as HS.
  do 2 eexists. split; [exact HG|]. split; [exact HS|].
  unfold twice, bind. now rewrite ?HG, ?HS.
Qed.

Lemma GetString_no_text h l v key st :
  h !! l = Some v -> field_in v key st ->
  GetString (Some l) key h = Returns "" h.
Proof.
  intros Hl Hf. rewrite (GetString_field h l v key Hl).
  destruct Hf as [Hd|data Hd Hk|data x Hd Hk Hx|data Hd Hk].
  - now rewrite (field_nil v key Hd).
  - now rewrite (field_missing v key data Hd Hk).
  - rewrite (field_held v key data x Hd Hk).
    now rewrite (assert_string_other x Hx).
  - now rewrite (field_held v key data _ Hd Hk).
Qed.

(** C10: [GetString] returns the empty string alike when the key is
    missing (nil Data, or no such key), when the value under the key is
    not a string, and when it is the empty string; so two Requests in any
    two of these situations give the same result. *)
Theorem GetString_conflates h l1 l2 v1 v2 key st1 st2 :
  h !! l1 = Some v1 ->
  h !! l2 = Some v2 ->
  field_in v1 key st1 ->
  field_in v2 key st2 ->
  GetString (Some l1) key h = Returns "" h /\
  GetString (Some l2) key h = GetString (Some l1) key h.
Proof.
  intros Hl1 Hl2 Hf1 Hf2.
  rewrite (GetString_no_text h l1 v1 key st1 Hl1 Hf1).
  now rewrite (GetString_no_text h l2 v2 key st2 Hl2 Hf2).
Qed.

End accessors.

(** ** The properties at the sample data *)

Lemma Get_absent_witness :
  (Get (Some 1%positive) "missing" sample_store = Returns ANil sample_store /\
   GetString (Some 1%positive) "missing" sample_store =
     Returns "" sample_store) /\
  Get (Some 2%positive) "missing" sample_store = Returns ANil sample_store.
Proof.
  split.
  - apply (Get_absent sample_store 1%positive req_zero "missing");
      reflexivity.
  - apply (Get_absent sample_store 2%positive req_fields "missing"
             eq_refl) with (data := default ∅ (rData req_fields));
      reflexivity.
Defined.

Lemma GetString_typed_witness :
  GetString (Some 2%positive) "ttl" sample_store = Returns "1h" sample_store /\
  GetString (Some 2%positive) "count" sample_store = Returns "" sample_store /\
  GetString (Some 2%positive) "op" sample_store = Returns "" sample_store.
Proof.
  split; [|split].
  - apply (GetString_typed sample_store 2%positive req_fields "ttl"
             (default ∅ (rData req_fields))); reflexivity.
  - apply (proj2 (GetString_typed sample_store 2%positive req_fields
                    "count" (default ∅ (rData req_fields)) eq_refl eq_refl)
             (AInt 3));
      [reflexivity|discriminate].
  - apply (proj2 (GetString_typed sample_store 2%positive req_fields
                    "op" (default ∅ (rData req_fields)) eq_refl eq_refl)
             (ANamed "Operation" "read"));
      [reflexivity|discriminate].
Defined.

Lemma accessors_pure_witness :
  exists x s,
    Get (Some 2%positive) "ttl" sample_store = Returns x sample_store /\
    GetString (Some 2%positive) "ttl" sample_store = Returns s sample_store /\
    twice (Get (Some 2%positive) "ttl") sample_store =
      Returns (x, x) sample_store /\
    twice (GetString (Some 2%positive) "ttl") sample_store =
      Returns (s, s) sample_store.
Proof.
  apply (accessors_pure sample_store 2%positive req_fields "ttl").
  reflexivity.
Defined.

Lemma GetString_conflates_witness :
  (GetString (Some 1%positive) "note" sample_store = Returns "" sample_store /\
   GetString (Some 2%positive) "note" sample_store =
     GetString (Some 1%positive) "note" sample_store) /\
  (GetString (Some 2%positive) "count" sample_store =
     Returns "" sample_store /\
   GetString (Some 3%positive) "count" sample_store =
     GetString (Some 2%positive) "count" sample_store).
Proof.
  split.
  - apply (GetString_conflates sample_store 1%positive 2%positive
             req_zero req_fields "note" Missing EmptyText);
      [reflexivity|reflexivity|..].
    + apply field_nil_map. reflexivity.
    + apply (field_empty _ _ (default ∅ (rData req_fields))); reflexivity.
  - apply (GetString_conflates sample_store 2%positive 3%positive
             req_fields req_renew "count" Mistyped Missing);
      [reflexivity|reflexivity|..].
    + apply (field_mistyped _ _ (default ∅ (rData req_fields)) (AInt 3));
        [reflexivity|reflexivity|discriminate].
    + apply (field_no_key _ _ (default ∅ (rData req_renew))); reflexivity.
Defined.

(** ** Two runs *)

(** [RenewRequest("aws/creds/role1", secretX, map{"ttl": "1h"})] on the
    empty store. *)
Example RenewRequest_run :
  RenewRequest (Storage:=unit) "aws/creds/role1" secretX
    (Some {[ "ttl" := AString "1h" ]}) ∅ =
  Returns (Some 1%positive) {[ 1%positive := req_renew ]}.
Proof. reflexivity. Qed.

(** [req := &Request{}; req.Get("missing"); req.GetString("missing")] *)
Example zero_request_run :
  (req <- new req_zero ;;
   x <- Get req "missing" ;;
   s <- GetString req "missing" ;;
   ret (x, s)) ∅ =
  Returns (ANil, "") {[ 1%positive := req_zero ]}.
Proof. reflexivity. Qed.

(** A method call through a nil [*Request] panics. *)
Example nil_receiver_run :
  Get (Secret:=string) (Storage:=unit) None "ttl" sample_store = Panics.
Proof. reflexivity. Qed.

(** * Further properties of the accessors and constructors *)

Section more_facts.
Context {Secret Storage : Type}.
Implicit Types (h : store Secret Storage) (v : Request Secret Storage).
Implicit Types (l : loc) (key : string) (data : gmap string any).
Implicit Types (r : option loc) (c : call Secret).

Lemma bind_returns {A B} (m : go Secret Storage A)
    (k : A -> go Secret Storage B) h a h1 :
  m h = Returns a h1 -> bind m k h = k a h1.
Proof. intros Hm. unfold bind. now rewrite Hm. Qed.

Lemma new_fresh v h :
  new v h = Returns (Some (fresh (dom h))) (<[fresh (dom h):=v]> h).
Proof. reflexivity. Qed.

Lemma perform_new c : exists v, perform c = new v.
Proof. destruct c; eexists; reflexivity. Qed.

Lemma lookup_after_new v h l w :
  h !! l = Some w -> <[fresh (dom h):=v]> h !! l = Some w.
Proof.
  intros Hl. rewrite lookup_insert_ne; [exact Hl|].
  intros <-. rewrite fresh_unused in Hl. discriminate.
Qed.

Lemma Get_unalloc r key h :
  (forall l, r = Some l -> h !! l = None) -> Get r key h = Panics.
Proof.
  intros Hr. unfold Get, bind, deref. destruct r as [l|]; [|reflexivity].
  now rewrite (Hr l eq_refl).
Qed.

Lemma GetString_unalloc r key h :
  (forall l, r = Some l -> h !! l = None) -> GetString r key h = Panics.
Proof.
  intros Hr. unfold GetString, bind. now rewrite (Get_unalloc r key h Hr).
Qed.

Lemma alloc_or_not r h :
  (exists l v, r = Some l /\ h !! l = Some v) \/
  (forall l, r = Some l -> h !! l = None).
Proof.
  destruct r as [l|]; [|right; discriminate].
  destruct (h !! l) as [v|] eqn:Hl; [left; eauto|].
  right. now intros l' [= <-].
Qed.

(** X1: [Get] and [GetString] panic exactly when the receiver is nil or
    points to no allocated Request (the guard of [Get] covers a nil Data,
    not a nil receiver); and whenever they return, for whatever receiver,
    the store they leave is the store they were given. *)
Theorem accessors_panic_iff r key h :
  (Get r key h = Panics <-> forall l, r = Some l -> h !! l = None) /\
  (GetString r key h = Panics <-> forall l, r = Some l -> h !! l = None) /\
  (forall x h', Get r key h = Returns x h' -> h' = h) /\
  (forall s h', GetString r key h = Returns s h' -> h' = h).
Proof.
  destruct (alloc_or_not r h) as [(l & v & -> & Hl)|Hr].
  - rewrite (Get_field h l v key Hl), (GetString_field h l v key Hl).
    repeat split; try discriminate; try congruence.
    + intros H. specialize (H l eq_refl). congruence.
    + intros H. specialize (H l eq_refl). congruence.
  - rewrite (Get_unalloc r key h Hr), (GetString_unalloc r key h Hr).
    repeat split; try discriminate; auto.
Qed.

(** X2: on an allocated Request, [Get] returns a non-nil value [x] exactly
    when Data is a non-nil map holding [x] under the key; it returns the
    nil interface exactly when Data is nil, or has no such key, or holds a
    nil value under it, so these three cases look alike to the caller. *)
Theorem Get_result_iff h l v key :
  h !! l = Some v ->
  (forall x, x <> ANil ->
     (Get (Some l) key h = Returns x h <->
      exists data, rData v = Some data /\ data !! key = Some x)) /\
  (Get (Some l) key h = Returns ANil h <->
   rData v = None \/
   exists data, rData v = Some data /\
                (data !! key = None \/ data !! key = Some ANil)).
Proof.
  intros Hl. rewrite (Get_field h l v key Hl). unfold field, index.
  destruct (rData v) as [data|]; split.
  - intros x Hx. split.
    + intros [= Hi]. exists data. split; [reflexivity|].
      destruct (data !! key) as [y|]; cbn in Hi; congruence.
    + intros (d & [= <-] & Hk). now rewrite Hk.
  - split.
    + intros [= Hi]. right. exists data. split; [reflexivity|].
      destruct (data !! key) as [y|]; cbn in Hi; [right|left]; congruence.
    + intros [Hn|(d & [= <-] & [Hk|Hk])]; [discriminate| |];
        now rewrite Hk.
  - intros x Hx. split.
    + intros [= Hi]. congruence.
    + intros (d & Hd & _). discriminate.
  - split; [now left|reflexivity].
Qed.

(** X3: on an allocated Request, [GetString] returns a non-empty text [s]
    exactly when Data is a non-nil map holding the string [s] under the
    key: a non-empty result proves the field present and string-typed. *)
Theorem GetString_nonempty_iff h l v key s :
  h !! l = Some v ->
  s <> "" ->
  (GetString (Some l) key h = Returns s h <->
   exists data, rData v = Some data /\ data !! key = Some (AString s)).
Proof.
  intros Hl Hs. rewrite (GetString_field h l v key Hl). unfold field, index.
  split.
  - intros [= Hi]. destruct (rData v) as [data|]; [|cbn in Hi; congruence].
    exists data. split; [reflexivity|].
    destruct (data !! key) as [y|]; [|cbn in Hi; congruence].
    destruct y; cbn in Hi; congruence.
  - intros (data & -> & ->). reflexivity.
Qed.

Lemma new_then_Get v key h :
  (r <- new v ;; Get r key) h =
  Returns (field v key) (<[fresh (dom h):=v]> h).
Proof.
  rewrite (bind_returns _ _ _ _ _ (new_fresh v h)).
  apply Get_field, lookup_insert_eq.
Qed.

Lemma new_then_GetString v key h :
  (r <- new v ;; GetString r key) h =
  Returns (assert_string (field v key)).1 (<[fresh (dom h):=v]> h).
Proof.
  rewrite (bind_returns _ _ _ _ _ (new_fresh v h)).
  apply GetString_field, lookup_insert_eq.
Qed.

Lemma index_insert data key x : index (<[key:=x]> data) key = x.
Proof. unfold index. now rewrite lookup_insert_eq. Qed.

(** X4: a value put under a key of the data map handed to [RenewRequest]
    or [RevokeRequest] is what [Get] returns for that key on the Request
    built, and a string put there is what [GetString] returns. *)
Theorem constructed_field_roundtrip path (secret : option Secret)
    data key x s h :
  result ((r <- RenewRequest path secret (Some (<[key:=x]> data)) ;;
           Get r key) h) = Some x /\
  result ((r <- RevokeRequest path secret (Some (<[key:=x]> data)) ;;
           Get r key) h) = Some x /\
  result ((r <- RenewRequest path secret
                  (Some (<[key:=AString s]> data)) ;;
           GetString r key) h) = Some s /\
  result ((r <- RevokeRequest path secret
                  (Some (<[key:=AString s]> data)) ;;
           GetString r key) h) = Some s.
Proof.
  unfold RenewRequest, RevokeRequest.
  rewrite !new_then_Get, !new_then_GetString. unfold field. cbn.
  now rewrite !index_insert.
Qed.

(** X5: the Request that [RollbackRequest] builds carries no field: on it
    [Get] returns the nil interface and [GetString] the empty string, for
    every key, and neither panics. *)
Theorem rollback_no_fields path key h :
  result ((r <- RollbackRequest path ;;
           x <- Get r key ;;
           s <- GetString r key ;;
           ret (x, s)) h) = Some (ANil, "").
Proof.
  unfold RollbackRequest.
  rewrite (bind_returns _ _ _ _ _ (new_fresh _ h)).
  rewrite (bind_returns _ _ _ _ _
             (Get_field _ _ _ key (lookup_insert_eq h _ _))).
  rewrite (bind_returns _ _ _ _ _
             (GetString_field _ _ _ key (lookup_insert_eq h _ _))).
  reflexivity.
Qed.

(** X6: two constructor calls in a row, whichever constructors and
    arguments, return two different non-nil pointers, and the second call
    leaves the Request built by the first as it was: no two calls share a
    Request. *)
Theorem constructors_never_alias c1 c2 h :
  exists l1 l2 h1 h2,
    perform c1 h = Returns (Some l1) h1 /\
    perform c2 h1 = Returns (Some l2) h2 /\
    (a <- perform c1 ;; b <- perform c2 ;; ret (a, b)) h =
      Returns (Some l1, Some l2) h2 /\
    l1 <> l2 /\
    is_Some (h1 !! l1) /\
    h2 !! l1 = h1 !! l1 /\
    is_Some (h2 !! l2).
Proof.
  destruct (perform_new c1) as [v1 E1], (perform_new c2) as [v2 E2].
  rewrite E1, E2.
  set (l1 := fresh (dom h)). set (h1 := <[l1:=v1]> h).
  set (l2 := fresh (dom h1)). set (h2 := <[l2:=v2]> h1).
  assert (H1 : h1 !! l1 = Some v1) by apply lookup_insert_eq.
  assert (Hne : l1 <> l2).
  { intros E. pose proof (fresh_unused h1) as Hf. fold l2 in Hf.
    rewrite <- E in Hf. congruence. }
  exists l1, l2, h1, h2.
  split; [reflexivity|]. split; [reflexivity|]. split; [reflexivity|].
  split; [exact Hne|]. split; [now exists v1|].
  split; [apply lookup_insert_ne; congruence|].
  exists v2. apply lookup_insert_eq.
Qed.

(** X7: building a new Request, with whichever constructor, does not
    change what [Get] and [GetString] return on a Request that was already
    allocated. *)
Theorem accessors_stable_under_construction h l v key c :
  h !! l = Some v ->
  exists x s h',
    Get (Some l) key h = Returns x h /\
    GetString (Some l) key h = Returns s h /\
    (p <- perform c ;; Get (Some l) key) h = Returns x h' /\
    (p <- perform c ;; GetString (Some l) key) h = Returns s h'.
Proof.
  intros Hl. destruct (perform_new c) as [w ->].
  pose proof (lookup_after_new w h l v Hl) as Hl'.
  exists (field v key), (assert_string (field v key)).1,
         (<[fresh (dom h):=w]> h).
  split; [apply Get_field, Hl|]. split; [apply GetString_field, Hl|].
  rewrite !(bind_returns _ _ _ _ _ (new_fresh w h)).
  split; [apply Get_field, Hl'|apply GetString_field, Hl'].
Qed.

(** X8: every Request built by a constructor has its Storage unset, and
    its Operation is one of the three defined global operations revoke,
    renew and rollback, never a per-path one; a rollback Request has a nil
    Data. *)
Theorem produced_shape (secret : option Secret) v :
  produced secret v ->
  rStorage v = None /\
  (rOperation v = "revoke" \/ rOperation v = "renew" \/
   rOperation v = "rollback") /\
  defined_operation (rOperation v) = true /\
  (rOperation v = "rollback" -> rData v = None).
Proof.
  intros [p s d h0 w H|p s d h0 w H|p h0 w H];
    apply allocates_new_inv in H; subst w; cbn.
  - split; [reflexivity|]. split; [now right; left|].
    split; [reflexivity|discriminate].
  - split; [reflexivity|]. split; [now left|].
    split; [reflexivity|discriminate].
  - split; [reflexivity|]. split; [now right; right|].
    split; [reflexivity|intros _; reflexivity].
Qed.

End more_facts.

(** X9: initialising the [var] block, whatever errors exist already,
    yields three sentinels that are pairwise different error values, none
    of them an error that existed before, carrying the texts
    "unsupported operation", "unsupported path" and "invalid request";
    the errors that existed keep their text. *)
Theorem sentinels_distinct (e : gmap loc string) :
  let s := (init_errors e).1 in
  let e' := (init_errors e).2 in
  ErrUnsupportedOperation s <> ErrUnsupportedPath s /\
  ErrUnsupportedOperation s <> ErrInvalidRequest s /\
  ErrUnsupportedPath s <> ErrInvalidRequest s /\
  e' !! ErrUnsupportedOperation s = Some "unsupported operation" /\
  e' !! ErrUnsupportedPath s = Some "unsupported path" /\
  e' !! ErrInvalidRequest s = Some "invalid request" /\
  e !! ErrUnsupportedOperation s = None /\
  e !! ErrUnsupportedPath s = None /\
  e !! ErrInvalidRequest s = None /\
  forall l t, e !! l = Some t -> e' !! l = Some t.
Proof.
  unfold init_errors, errors_New. cbn.
  set (a := fresh (dom e)). set (e1 := <[a:="unsupported operation"]> e).
  set (b := fresh (dom e1)). set (e2 := <[b:="unsupported path"]> e1).
  set (c := fresh (dom e2)).
  assert (Ha : e !! a = None) by apply not_elem_of_dom, is_fresh.
  assert (Hb : e1 !! b = None) by apply not_elem_of_dom, is_fresh.
  assert (Hc : e2 !! c = None) by apply not_elem_of_dom, is_fresh.
  assert (Hab : a <> b).
  { intros E. subst e1. rewrite <- E, lookup_insert_eq in Hb. discriminate. }
  assert (Hbc : b <> c).
  { intros E. subst e2. rewrite <- E, lookup_insert_eq in Hc. discriminate. }
  assert (Hac : a <> c).
  { intros E. subst e2 e1. rewrite <- E in Hc.
    rewrite lookup_insert_ne, lookup_insert_eq in Hc by congruence.
    discriminate. }
  assert (Hb0 : e !! b = None).
  { subst e1. now rewrite lookup_insert_ne in Hb by congruence. }
  assert (Hc0 : e !! c = None).
  { subst e2 e1. now rewrite !lookup_insert_ne in Hc by congruence. }
  repeat (split; [first [assumption | idtac]|]).
  - subst e2 e1. now rewrite !lookup_insert_ne, lookup_insert_eq by congruence.
  - subst e2. now rewrite lookup_insert_ne, lookup_insert_eq by congruence.
  - apply lookup_insert_eq.
  - intros l t Hl. subst e2 e1.
    rewrite !lookup_insert_ne; [exact Hl|congruence..].
Qed.

(** ** The further properties at the sample data *)

Lemma Get_result_iff_witness :
  (forall x, x <> ANil ->
     (Get (Some 2%positive) "ttl" sample_store = Returns x sample_store <->
      exists data, rData req_fields = Some data /\ data !! "ttl" = Some x)) /\
  (Get (Some 2%positive) "ttl" sample_store = Returns ANil sample_store <->
   rData req_fields = None \/
   exists data, rData req_fields = Some data /\
                (data !! "ttl" = None \/ data !! "ttl" = Some ANil)).
Proof.
  apply (Get_result_iff sample_store 2%positive req_fields "ttl").
  reflexivity.
Defined.

Lemma GetString_nonempty_iff_witness :
  GetString (Some 3%positive) "ttl" sample_store =
    Returns "1h" sample_store <->
  exists data, rData req_renew = Some data /\
               data !! "ttl" = Some (AString "1h").
Proof.
  apply (GetString_nonempty_iff sample_store 3%positive req_renew "ttl" "1h");
    [reflexivity|discriminate].
Defined.

Lemma accessors_stable_under_construction_witness :
  exists x s h',
    Get (Some 2%positive) "ttl" sample_store = Returns x sample_store /\
    GetString (Some 2%positive) "ttl" sample_store =
      Returns s sample_store /\
    (p <- perform (CallRollback "creds") ;; Get (Some 2%positive) "ttl")
      sample_store = Returns x h' /\
    (p <- perform (CallRollback "creds") ;;
     GetString (Some 2%positive) "ttl") sample_store = Returns s h'.
Proof.
  apply (accessors_stable_under_construction sample_store 2%positive
           req_fields "ttl" (CallRollback "creds")).
  reflexivity.
Defined.

Lemma produced_shape_witness :
  produced secretX req_renew /\
  rStorage req_renew = None /\
  (rOperation req_renew = "revoke" \/ rOperation req_renew = "renew" \/
   rOperation req_renew = "rollback") /\
  defined_operation (rOperation req_renew) = true /\
  (rOperation req_renew = "rollback" -> rData req_renew = None).
Proof.
  split; [|apply (produced_shape secretX req_renew)];
    apply (produced_renew "aws/creds/role1" secretX
             (Some {[ "ttl" := AString "1h" ]}) ∅), new_allocates.
Defined.
